(** * gradio.components.color_picker: the ColorPicker component

    A shallow embedding of [gradio/components/color_picker.py] and the
    properties of its value pipeline ([preprocess], [postprocess]), its
    introspection methods ([example_payload], [example_value], [api_info]),
    its event declaration ([EVENTS]) and its constructor.

    Python values are an inductive type, a call that may raise returns in
    the error monad [Raises], the dictionary returned by [api_info] is a
    [gmap] and every method takes its instance [self] explicitly. *)

From Stdlib Require Import ZArith String DecimalString Floats.
From stdpp Require Import base option list gmap strings.

Local Open Scope string_scope.

(** ** Python values, exceptions and the builtin [str] *)

Module Py.

Inductive Exception :=
| TypeError (message : string)
| ValueError (message : string)
| Raised (message : string).

(** A call either returns a value or raises. *)
Inductive Raises (A : Type) :=
| Return (a : A)
| Raise (e : Exception).
Arguments Return {A} a.
Arguments Raise {A} e.

#[global] Instance Raises_ret : MRet Raises := fun _ a => Return a.
#[global] Instance Raises_bind : MBind Raises := fun _ _ k m =>
  match m with
  | Return a => k a
  | Raise e => Raise e
  end.

(** The values a payload can be.  [Str] is an exact [str].  [Instance] is
    an instance of a user class, reduced to what [str()] observes of it:
    its string content when the class derives from [str] ([None]
    otherwise), and what its [__str__] method does. *)
Inductive object :=
| None_
| Str (s : string)
| Bool (b : bool)
| Int (n : Z)
| Instance (content : option string) (dunder_str : StrMethod)
with StrMethod :=
| ReturnsSelf
| Returns (o : object)
| Raising (e : Exception).

(** [x is None] *)
Definition is_None (x : object) : bool :=
  match x with
  | None_ => true
  | _ => false
  end.

(** [type(x) is str]: an exact string. *)
Definition is_str (x : object) : bool :=
  match x with
  | Str _ => true
  | _ => false
  end.

(** [isinstance(x, str)]: an exact string or an instance of a subclass. *)
Definition isinstance_str (x : object) : bool :=
  match x with
  | Str _ => true
  | Instance (Some _) _ => true
  | _ => false
  end.

(** The decimal form of an integer and the number of its digits. *)
Definition decimal (n : Z) : string := NilZero.string_of_int (Z.to_int n).

Definition digits (n : Z) : nat := String.length (decimal (Z.abs n)).

(** [sys.get_int_max_str_digits()], at the interpreter's default. *)
Definition int_max_str_digits : nat := 4300.

(** The builtin [str(x)].  An exact string is returned as it is.  An
    integer with more digits than the interpreter's limit raises.  For an
    instance the result is what [__str__] returns, as it is, also when that
    is an instance of a subclass of [str]; a result that is no string at
    all is a [TypeError], and what [__str__] raises is raised. *)
Definition str (x : object) : Raises object :=
  match x with
  | None_ => Return (Str "None")
  | Str s => Return (Str s)
  | Bool true => Return (Str "True")
  | Bool false => Return (Str "False")
  | Int n =>
      if Nat.leb (digits n) int_max_str_digits then Return (Str (decimal n))
      else Raise (ValueError "Exceeds the limit for integer string conversion")
  | Instance _ ReturnsSelf =>
      if isinstance_str x then Return x
      else Raise (TypeError "__str__ returned non-string")
  | Instance _ (Returns o) =>
      if isinstance_str o then Return o
      else Raise (TypeError "__str__ returned non-string")
  | Instance _ (Raising e) => Raise e
  end.

(** The annotation [str | None] of the pipeline's argument and result. *)
Definition str_or_None (x : object) : bool := is_None x || is_str x.

End Py.

Import Py.

(** ** gradio.events.Events *)

Module Events.

(** Modelled from the spec: the enumeration [gradio.events.Events] is not
    part of this file; an event kind is a symbolic name, and each member
    used here stands for the kind of its own name. *)
Definition kind := string.

Definition change : kind := "change".
Definition input : kind := "input".
Definition submit : kind := "submit".
Definition focus : kind := "focus".
Definition blur : kind := "blur".

End Events.

(** ** gradio.components.base.Component *)

Module Component.

(** [value]: a literal, or a zero-argument callable. *)
Inductive Default :=
| Literal (v : object)
| Computed (fn : unit -> Raises object).

Definition callable (d : Default) : bool :=
  match d with
  | Literal _ => false
  | Computed _ => true
  end.

(** [inputs]: [Component | Sequence[Component] | set[Component]], the
    upstream components being referred to by their identity. *)
Inductive Upstream :=
| One (c : nat)
| Sequence (cs : list nat)
| SetOf (cs : gset nat).

(** [key]: [int | str | tuple[int | str, ...]]. *)
Inductive KeyAtom :=
| KeyInt (n : Z)
| KeyStr (s : string).

Section Host.

(** The classes [I18nData] and [Timer] of the framework. *)
Variables I18nData Timer : Type.

(** The keyword arguments of [Component.__init__]. *)
Record kwargs := {
  label : option (string + I18nData);
  info : option (string + I18nData);
  every : option (Timer + float);
  inputs : option Upstream;
  show_label : option bool;
  container : bool;
  scale : option Z;
  min_width : Z;
  interactive : option bool;
  visible : bool;
  elem_id : option string;
  elem_classes : option (list string + string);
  render : bool;
  key : option (KeyAtom + list KeyAtom);
  preserved_by_key : option (list string + string);
  value : Default
}.

(** A built component: its options, its current value and, for a
    computed default, the computation to re-invoke. *)
Record t := {
  config : kwargs;
  current_value : object;
  load_fn : option (unit -> Raises object)
}.

(** [not inputs]: [None], an empty sequence and an empty set are false. *)
Definition truthy (inputs : option Upstream) : bool :=
  match inputs with
  | None => false
  | Some (One _) => true
  | Some (Sequence cs) => negb (bool_decide (cs = []))
  | Some (SetOf cs) => negb (bool_decide (cs = ∅))
  end.

(** Modelled from the spec: the base class [Component] lives in
    [gradio/components/base.py], which is not part of this file.  As in
    section 4.2 of the specification, a literal default is the initial
    value and schedules no recomputation, and a computed default supplies
    the initial value and is kept to be re-invoked.  Where the
    specification and the parameter documentation of [ColorPicker.__init__]
    (color_picker.py, lines 49 to 53) differ, the documentation is
    followed, as the framework's base class does: [every] and [inputs]
    have no effect unless [value] is a function, so no combination of them
    is refused; with upstream components declared the computation is left
    to the load event rather than invoked at construction. *)
Definition get_load_fn_and_initial_value
    (value : Default) (inputs : option Upstream)
  : Raises (option (unit -> Raises object) * object) :=
  match value with
  | Computed fn =>
      if truthy inputs then Return (Some fn, None_)
      else initial_value ← fn tt; Return (Some fn, initial_value)
  | Literal v => Return (None, v)
  end.

(** Modelled from the spec: the constructor of the base class (see
    [get_load_fn_and_initial_value]).  It raises no configuration error of
    its own; the initial value is stored after it went through the
    [postprocess] method of the class being built, so the constructor
    raises only when the default computation or that conversion does. *)
Definition __init__
    (postprocess : t -> object -> Raises object) (kw : kwargs) : Raises t :=
  '(load_fn, initial_value) ←
    get_load_fn_and_initial_value (value kw) (inputs kw);
  let self := {| config := kw; current_value := None_; load_fn := None |} in
  initial_value ← postprocess self initial_value;
  Return {| config := kw; current_value := initial_value;
            load_fn := load_fn |}.

End Host.

End Component.

(** ** gradio.components.color_picker.ColorPicker *)

Module ColorPicker.

Import Component.

Section Host.

Variables I18nData Timer : Type.

(** [class ColorPicker(Component)] *)
Definition t := Component.t I18nData Timer.

Definition EVENTS : list Events.kind :=
  [Events.change; Events.input; Events.submit; Events.focus; Events.blur].

Definition example_payload (self : t) : string := "#000000".

Definition example_value (self : t) : string := "#000000".

Definition api_info (self : t) : gmap string object :=
  {[ "type" := Str "string" ]}.

Definition preprocess (self : t) (payload : object) : Raises object :=
  if is_None payload then
    Return None_
  else
    str payload.

Definition postprocess (self : t) (value : object) : Raises object :=
  if is_None value then
    Return None_
  else
    str value.

(** The constructor comes last here because the base constructor calls the
    [postprocess] method of the instance it builds. *)
Definition __init__
    (value : Default)
    (label : option (string + I18nData))
    (info : option (string + I18nData))
    (every : option (Timer + float))
    (inputs : option Upstream)
    (show_label : option bool)
    (container : bool)
    (scale : option Z)
    (min_width : Z)
    (interactive : option bool)
    (visible : bool)
    (elem_id : option string)
    (elem_classes : option (list string + string))
    (render : bool)
    (key : option (KeyAtom + list KeyAtom))
    (preserved_by_key : option (list string + string)) : Raises t :=
  Component.__init__ I18nData Timer postprocess {|
    Component.label := label;
    Component.info := info;
    Component.every := every;
    Component.inputs := inputs;
    Component.show_label := show_label;
    Component.container := container;
    Component.scale := scale;
    Component.min_width := min_width;
    Component.interactive := interactive;
    Component.visible := visible;
    Component.elem_id := elem_id;
    Component.elem_classes := elem_classes;
    Component.render := render;
    Component.key := key;
    Component.preserved_by_key := preserved_by_key;
    Component.value := value
  |}.

End Host.

Arguments example_payload {I18nData Timer} self.
Arguments example_value {I18nData Timer} self.
Arguments api_info {I18nData Timer} self.
Arguments preprocess {I18nData Timer} self payload.
Arguments postprocess {I18nData Timer} self value.

(** What [ColorPicker(value=v, label=label)] builds for a literal [v], every
    other option at the default of the signature (see
    [init_literal_instance]). *)
Definition literal_instance (v : object) (label : option (string + unit))
  : t unit unit :=
  {| config := {|
       Component.label := label;
       info := None;
       every := None;
       inputs := None;
       show_label := None;
       container := true;
       scale := None;
       min_width := 160;
       interactive := None;
       visible := true;
       elem_id := None;
       elem_classes := None;
       render := true;
       key := None;
       preserved_by_key := Some (inr "value");
       value := Literal v
     |};
     current_value := v;
     load_fn := None |}.

(** *** Properties *)

Section Properties.

Variables I18nData Timer : Type.

Implicit Types (self : t I18nData Timer) (x y : object) (s : string).

Lemma str_or_None_cases x :
  str_or_None x = true -> x = None_ \/ exists s, x = Str s.
Proof.
  destruct x; simpl; intros Hx; try discriminate; eauto.
Qed.

(** The two conversions have the same body, whatever the argument. *)
Lemma preprocess_postprocess self x : preprocess self x = postprocess self x.
Proof. reflexivity. Qed.

(** What the builtin [str] returns is an instance of [str], exact or of a
    subclass. *)
Lemma str_returns_str_instance x y :
  str x = Return y -> isinstance_str y = true.
Proof.
  destruct x as [ | s | [ | ] | n | c [ | o | e ] ]; simpl.
  - intros [= <-]. reflexivity.
  - intros [= <-]. reflexivity.
  - intros [= <-]. reflexivity.
  - intros [= <-]. reflexivity.
  - destruct (Nat.leb (digits n) int_max_str_digits); [ | discriminate ].
    intros [= <-]. reflexivity.
  - destruct c as [ s | ]; [ | discriminate ].
    intros [= <-]. reflexivity.
  - destruct (isinstance_str o) eqn:Ho; [ | discriminate ].
    intros [= <-]. exact Ho.
  - discriminate.
Qed.

(** Outside its annotation the conversion can raise: an object whose
    [__str__] raises makes [str(payload)] raise. *)
Lemma preprocess_raises self e :
  preprocess self (Instance None (Raising e)) = Raise e.
Proof. reflexivity. Qed.


(** C2.  For every string [s], [preprocess] returns [s] unchanged and
    [postprocess] returns [s] unchanged. *)
Theorem pipeline_identity_on_str self s :
  preprocess self (Str s) = Return (Str s)
  /\ postprocess self (Str s) = Return (Str s).
Proof. split; reflexivity. Qed.

(** C3.  The absent value is preserved: [preprocess] of [None] returns
    [None], and so does [postprocess]. *)
Theorem pipeline_preserves_None self :
  preprocess self None_ = Return None_
  /\ postprocess self None_ = Return None_.
Proof. split; reflexivity. Qed.

(** C4.  Both conversions are idempotent on their declared domain: for a
    string or absent [x], converting the result of [preprocess] again gives
    the result of [preprocess], and likewise for [postprocess]. *)
Theorem pipeline_idempotent self x :
  str_or_None x = true ->
  preprocess self x ≫= preprocess self = preprocess self x
  /\ postprocess self x ≫= postprocess self = postprocess self x.
Proof.
  intros Hx. destruct (str_or_None_cases x Hx) as [-> | [s ->]].
  - split; reflexivity.
  - split; reflexivity.
Qed.

(** C5.  Both conversions are total on their declared domain: for a string
    or absent input each returns a result, itself a string or absent, and
    does not raise. *)
Theorem pipeline_total self x :
  str_or_None x = true ->
  (exists y, preprocess self x = Return y /\ str_or_None y = true)
  /\ (exists y, postprocess self x = Return y /\ str_or_None y = true).
Proof.
  intros Hx. destruct (str_or_None_cases x Hx) as [-> | [s ->]].
  - split; exists None_; split; reflexivity.
  - split; exists (Str s); split; reflexivity.
Qed.

(** C6.  The declared event kinds are exactly change, input, submit, focus
    and blur: a kind is declared if and only if it is one of the five, and
    no kind is declared twice. *)
Theorem EVENTS_exactly_five :
  (forall k : Events.kind,
      k ∈ EVENTS <->
      k = Events.change \/ k = Events.input \/ k = Events.submit
      \/ k = Events.focus \/ k = Events.blur)
  /\ NoDup EVENTS.
Proof.
  split.
  - intros k. unfold EVENTS.
    rewrite !elem_of_cons, elem_of_nil. tauto.
  - unfold EVENTS.
    repeat (apply NoDup_cons; split;
            [rewrite ?elem_of_cons, elem_of_nil; intuition discriminate | ]).
    apply NoDup_nil_2.
Qed.

(** C7.  [example_payload()] and [example_value()] both return "#000000",
    and each passes unchanged through its conversion. *)
Theorem examples_are_fixed_points self :
  example_payload self = "#000000"
  /\ example_value self = "#000000"
  /\ preprocess self (Str (example_payload self))
     = Return (Str (example_payload self))
  /\ postprocess self (Str (example_value self))
     = Return (Str (example_value self)).
Proof. repeat split. Qed.

(** C8.  [api_info()] returns the dictionary with the single entry
    "type": "string", for every instance: [k] maps to [v] in it if and only
    if [k] is "type" and [v] is the string "string". *)
Theorem api_info_exact self :
  api_info self = {[ "type" := Str "string" ]}
  /\ dom (api_info self) = {[ "type" ]}
  /\ forall k v,
       api_info self !! k = Some v <-> k = "type" /\ v = Str "string".
Proof.
  split; [reflexivity | split].
  - unfold api_info. apply dom_singleton_L.
  - intros k v. unfold api_info. rewrite lookup_singleton_Some.
    intuition congruence.
Qed.

(** C9.  The two conversions agree: for every string or absent [x],
    [preprocess] and [postprocess] return the same result. *)
Theorem preprocess_eq_postprocess self x :
  str_or_None x = true -> preprocess self x = postprocess self x.
Proof. intros _. apply preprocess_postprocess. Qed.

(** C10.  The conversions do not depend on the instance: for any two
    ColorPicker instances and every string or absent [x], [preprocess]
    gives the same result on both, and so does [postprocess]. *)
Theorem pipeline_independent_of_instance self self' x :
  str_or_None x = true ->
  preprocess self x = preprocess self' x
  /\ postprocess self x = postprocess self' x.
Proof. intros _. split; reflexivity. Qed.

End Properties.

(** *** Concrete runs *)

(** [ColorPicker()] and [ColorPicker("#ff0000", label="Pick")] build the
    instances used below. *)
Example init_literal_instance :
  __init__ unit unit
    (Literal None_) None None None None None true None 160 None true None
    None true None (Some (inr "value"))
  = Return (literal_instance None_ None)
  /\ __init__ unit unit
       (Literal (Str "#ff0000")) (Some (inl "Pick")) None None None None true
       None 160 None true None None true None (Some (inr "value"))
     = Return (literal_instance (Str "#ff0000") (Some (inl "Pick"))).
Proof. split; reflexivity. Qed.



(** A computed default is invoked at construction when no upstream
    component is declared, and left to the load event when one is. *)
Example init_computed_run :
  (exists self,
      __init__ unit unit
        (Computed (fun _ => Return (Str "#00ff00"))) None None None None None
        true None 160 None true None None true None (Some (inr "value"))
      = Return self
      /\ current_value _ _ self = Str "#00ff00")
  /\ (exists self,
        __init__ unit unit
          (Computed (fun _ => Return (Str "#00ff00"))) None None None
          (Some (Sequence [1])) None true None 160 None true None None true
          None (Some (inr "value"))
        = Return self
        /\ current_value _ _ self = None_).
Proof. split; eexists; split; reflexivity. Qed.

(** A literal default that is no string is stored in its string form. *)
Example init_coerces_literal :
  exists self,
    __init__ unit unit
      (Literal (Int 5)) None None None None None true None 160 None true None
      None true None (Some (inr "value"))
    = Return self
    /\ current_value _ _ self = Str "5".
Proof. eexists. split; reflexivity. Qed.

(** [str] on values that are not exact strings: an integer, a boolean, an
    object whose [__str__] returns a string, and an instance of a subclass
    of [str] whose [__str__] returns the instance itself. *)
Example preprocess_coerces :
  preprocess (literal_instance None_ None) (Int (-15)) = Return (Str "-15")
  /\ preprocess (literal_instance None_ None) (Bool true)
     = Return (Str "True")
  /\ preprocess (literal_instance None_ None)
       (Instance None (Returns (Str "#abcdef")))
     = Return (Str "#abcdef")
  /\ preprocess (literal_instance None_ None)
       (Instance (Some "#abc") ReturnsSelf)
     = Return (Instance (Some "#abc") ReturnsSelf).
Proof. repeat split. Qed.

(** Outside [str | None] a second conversion can differ from the first:
    when [__str__] returns an instance of a subclass of [str] whose own
    [__str__] gives another string, or raises. *)
Example preprocess_twice_differs :
  preprocess (literal_instance None_ None)
    (Instance None (Returns (Instance (Some "#abc") (Returns (Str "zzz")))))
  = Return (Instance (Some "#abc") (Returns (Str "zzz")))
  /\ preprocess (literal_instance None_ None)
       (Instance (Some "#abc") (Returns (Str "zzz")))
     = Return (Str "zzz")
  /\ preprocess (literal_instance None_ None)
       (Instance (Some "#abc") (Raising (Raised "bad")))
     = Raise (Raised "bad").
Proof. repeat split. Qed.

(** An integer beyond the interpreter's digit limit makes [str] raise. *)
Example preprocess_huge_int :
  exists e,
    preprocess (literal_instance None_ None) (Int (10 ^ 4300)) = Raise e.
Proof. eexists. vm_compute. reflexivity. Qed.

Lemma pipeline_idempotent_witness :
  str_or_None (Str "#abcdef") = true
  /\ (preprocess (literal_instance None_ None) (Str "#abcdef")
        ≫= preprocess (literal_instance None_ None)
      = preprocess (literal_instance None_ None) (Str "#abcdef")
      /\ postprocess (literal_instance None_ None) (Str "#abcdef")
           ≫= postprocess (literal_instance None_ None)
         = postprocess (literal_instance None_ None) (Str "#abcdef")).
Proof.
  split; [reflexivity | ].
  apply (pipeline_idempotent unit unit (literal_instance None_ None)
           (Str "#abcdef")).
  reflexivity.
Defined.

Lemma pipeline_total_witness :
  str_or_None None_ = true
  /\ ((exists y, preprocess (literal_instance None_ None) None_ = Return y
                 /\ str_or_None y = true)
      /\ (exists y, postprocess (literal_instance None_ None) None_ = Return y
                    /\ str_or_None y = true)).
Proof.
  split; [reflexivity | ].
  apply (pipeline_total unit unit (literal_instance None_ None) None_).
  reflexivity.
Defined.

Lemma preprocess_eq_postprocess_witness :
  str_or_None (Str "#123456") = true
  /\ preprocess (literal_instance None_ None) (Str "#123456")
     = postprocess (literal_instance None_ None) (Str "#123456").
Proof.
  split; [reflexivity | ].
  apply (preprocess_eq_postprocess unit unit (literal_instance None_ None)
           (Str "#123456")).
  reflexivity.
Defined.

Lemma pipeline_independent_of_instance_witness :
  str_or_None (Str "#abcdef") = true
  /\ (preprocess (literal_instance None_ None) (Str "#abcdef")
      = preprocess (literal_instance (Str "#ff0000") (Some (inl "Pick")))
          (Str "#abcdef")
      /\ postprocess (literal_instance None_ None) (Str "#abcdef")
         = postprocess (literal_instance (Str "#ff0000") (Some (inl "Pick")))
             (Str "#abcdef")).
Proof.
  split; [reflexivity | ].
  apply (pipeline_independent_of_instance unit unit
           (literal_instance None_ None)
           (literal_instance (Str "#ff0000") (Some (inl "Pick")))
           (Str "#abcdef")).
  reflexivity.
Defined.

(** *** Further properties of the value pipeline *)

Section Pipeline.

Variables I18nData Timer : Type.

Implicit Types (self : t I18nData Timer) (x y : object) (s : string).

(** X1.  Whatever the payload is (a string, [None], a number, a boolean or
    any other object), a conversion that returns has returned [None] or an
    instance of [str] (an exact string, or an instance of a subclass that
    [str()] handed back as it is): nothing else comes out of the
    pipeline. *)
Theorem pipeline_result_None_or_str_instance self x y :
  preprocess self x = Return y \/ postprocess self x = Return y ->
  is_None y || isinstance_str y = true.
Proof.
  change (postprocess self x) with (preprocess self x). intros Hy.
  assert (Hpre : preprocess self x = Return y) by tauto. clear Hy.
  destruct (is_None x) eqn:Hx; unfold preprocess in Hpre; rewrite Hx in Hpre.
  - injection Hpre as <-. reflexivity.
  - rewrite (str_returns_str_instance x y Hpre). apply orb_true_r.
Qed.

(** X2.  [None] comes out exactly when [None] went in: a payload that is
    not [None] is never turned into [None], and [None] is never turned into
    a string (in particular not into the string "None"). *)
Theorem pipeline_None_iff self x :
  (preprocess self x = Return None_ <-> x = None_)
  /\ (postprocess self x = Return None_ <-> x = None_).
Proof.
  change (postprocess self x) with (preprocess self x).
  assert (H : preprocess self x = Return None_ <-> x = None_).
  { split.
    - destruct (is_None x) eqn:Hx.
      + destruct x; try discriminate Hx. reflexivity.
      + unfold preprocess. rewrite Hx. intros Hstr.
        apply str_returns_str_instance in Hstr. discriminate Hstr.
    - intros ->. reflexivity. }
  tauto.
Qed.

(** X4.  A conversion raises exactly when [str(payload)] raises, and then
    with the same exception: nothing is caught or replaced, and there is no
    other source of errors. *)
Theorem pipeline_raises_iff self x e :
  (preprocess self x = Raise e <-> str x = Raise e)
  /\ (postprocess self x = Raise e <-> str x = Raise e).
Proof.
  change (postprocess self x) with (preprocess self x).
  assert (H : preprocess self x = Raise e <-> str x = Raise e).
  { destruct (is_None x) eqn:Hx.
    - destruct x; try discriminate Hx. split; discriminate.
    - unfold preprocess. rewrite Hx. tauto. }
  tauto.
Qed.

End Pipeline.

Lemma pipeline_result_None_or_str_instance_witness :
  (preprocess (literal_instance None_ None) (Int 7) = Return (Str "7")
   \/ postprocess (literal_instance None_ None) (Int 7) = Return (Str "7"))
  /\ is_None (Str "7") || isinstance_str (Str "7") = true.
Proof.
  assert (H : preprocess (literal_instance None_ None) (Int 7)
              = Return (Str "7")
              \/ postprocess (literal_instance None_ None) (Int 7)
                 = Return (Str "7")) by (left; reflexivity).
  split; [exact H | ].
  exact (pipeline_result_None_or_str_instance unit unit
           (literal_instance None_ None) (Int 7) (Str "7") H).
Defined.

End ColorPicker.
